(** * Gapp Text Editor: a shallow embedding of [src/main.py]

    The program is a PySide6 application.  Its own code consists of a few
    widget subclasses whose methods read and write attributes, call the
    toolkit, and perform text-file I/O inside [try]/[except] blocks.  The
    development below embeds those methods as functions over explicit state:

    - the widgets' attributes are record fields;
    - slots that can raise are computations in a state-and-exception monad
      [M]; what the outside world does during one slot invocation (the file
      dialog's answer, I/O errors) is an explicit [Env];
    - signal connections made in the constructors are calls to the
      connected slots;
    - the gutter's [paintEvent] is a function from the document's blocks
      and the repaint rectangle to the painter calls it issues and to how
      it ends, by returning or by raising.

    Toolkit conventions used by the model (they are not code of this
    repository): a document's block count is its number of lines; setting
    or clearing the document text emits [textChanged], preceded by
    [blockCountChanged] when the count differs; [setFixedWidth] fixes what
    [width()] returns; the text layer of [open] returns on reading what
    was written under the same encoding; [QTextEdit], the class the editor
    derives from, has none of the block layout methods of
    [QPlainTextEdit].  Geometry, [qreal] in the toolkit, is taken in exact
    rationals. *)

From Stdlib Require Import ZArith QArith String Ascii List Lia Bool.
From Stdlib Require Import DecimalString DecimalFacts DecimalPos DecimalN DecimalZ.
From stdpp Require Import base option gmap strings.

Local Open Scope Z_scope.
Local Open Scope string_scope.

(** ** Python values *)

(** [str(n)] for an [int]. *)
Definition str_int (n : Z) : string := NilZero.string_of_int (Z.to_int n).

(** Truthiness of a [str]: empty is false. *)
Definition truthy (s : string) : bool :=
  match s with EmptyString => false | String _ _ => true end.

(** [a or b] on strings. *)
Definition str_or (a b : string) : string := if truthy a then a else b.

(** An instance of (a subclass of) [Exception]: its class name and [str(e)].
    Every error the I/O layer and the dialogs raise is of this kind. *)
Record exn := mk_exn { exn_class : string; exn_str : string }.

Inductive result (A : Type) : Type :=
| Return (a : A)
| Raise (e : exn).
Arguments Return {A} a.
Arguments Raise {A} e.

(** ** Widget state *)

(** The [QWidget] part of the gutter. *)
Record LineNumberArea := mk_lna {
  lna_width : Z;          (* width(), fixed by setFixedWidth *)
  lna_visible : bool;     (* set by setVisible *)
  lna_updates : nat       (* repaints requested through update() *)
}.

(** The [QTextEdit] part of the editor: what the toolkit widget holds. *)
Record QTextEdit := mk_qte {
  plain_text : string;                (* toPlainText() *)
  undo_redo_enabled : bool;           (* isUndoRedoEnabled() *)
  viewport_margins : Z * Z * Z * Z;   (* left, top, right, bottom *)
  advance_9 : Z;                      (* fontMetrics().horizontalAdvance("9") *)
  font_height : Z;                    (* fontMetrics().height() *)
  textChanged_emitted : nat           (* emissions of textChanged so far *)
}.

Record TextEditor := mk_te {
  qt : QTextEdit;
  current_file_path : string;
  show_line_numbers : bool;
  line_number_area : LineNumberArea
}.

Record StatusBar := mk_sb {
  file_label : string;                  (* text of the QLabel *)
  status_message : option (string * Z)  (* showMessage(text, timeout) *)
}.

(** One call of the built-in [open]. *)
Inductive open_mode := ModeR | ModeW.
Record io_call := mk_io { io_path : string; io_mode : open_mode; io_encoding : string }.

(** The main window together with the part of the world it acts on. *)
Record App := mk_app {
  text_editor : TextEditor;
  status_bar : StatusBar;
  fs : gmap string string;   (* path to the text read() returns for the file *)
  io_log : list io_call      (* every call of open, oldest first *)
}.

(** *** Field updates *)

Definition lna_set_width (w : Z) (g : LineNumberArea) : LineNumberArea :=
  mk_lna w (lna_visible g) (lna_updates g).
Definition lna_set_visible (b : bool) (g : LineNumberArea) : LineNumberArea :=
  mk_lna (lna_width g) b (lna_updates g).
Definition lna_update (g : LineNumberArea) : LineNumberArea :=
  mk_lna (lna_width g) (lna_visible g) (S (lna_updates g)).

Definition qt_set_text (t : string) (q : QTextEdit) : QTextEdit :=
  mk_qte t (undo_redo_enabled q) (viewport_margins q) (advance_9 q) (font_height q)
         (textChanged_emitted q).
Definition setUndoRedoEnabled (b : bool) (q : QTextEdit) : QTextEdit :=
  mk_qte (plain_text q) b (viewport_margins q) (advance_9 q) (font_height q)
         (textChanged_emitted q).
Definition qt_set_margins (m : Z * Z * Z * Z) (q : QTextEdit) : QTextEdit :=
  mk_qte (plain_text q) (undo_redo_enabled q) m (advance_9 q) (font_height q)
         (textChanged_emitted q).
Definition qt_count_emission (q : QTextEdit) : QTextEdit :=
  mk_qte (plain_text q) (undo_redo_enabled q) (viewport_margins q) (advance_9 q)
         (font_height q) (S (textChanged_emitted q)).

Definition te_set_qt (q : QTextEdit) (ed : TextEditor) : TextEditor :=
  mk_te q (current_file_path ed) (show_line_numbers ed) (line_number_area ed).
Definition te_set_path (p : string) (ed : TextEditor) : TextEditor :=
  mk_te (qt ed) p (show_line_numbers ed) (line_number_area ed).
Definition te_set_show (b : bool) (ed : TextEditor) : TextEditor :=
  mk_te (qt ed) (current_file_path ed) b (line_number_area ed).
Definition te_set_lna (g : LineNumberArea) (ed : TextEditor) : TextEditor :=
  mk_te (qt ed) (current_file_path ed) (show_line_numbers ed) g.

Definition sb_set_label (l : string) (sb : StatusBar) : StatusBar :=
  mk_sb l (status_message sb).
Definition sb_showMessage (msg : string) (timeout : Z) (sb : StatusBar) : StatusBar :=
  mk_sb (file_label sb) (Some (msg, timeout)).

Definition app_set_editor (ed : TextEditor) (a : App) : App :=
  mk_app ed (status_bar a) (fs a) (io_log a).
Definition app_set_status (sb : StatusBar) (a : App) : App :=
  mk_app (text_editor a) sb (fs a) (io_log a).
Definition app_set_fs (f : gmap string string) (a : App) : App :=
  mk_app (text_editor a) (status_bar a) f (io_log a).
Definition app_log (c : io_call) (a : App) : App :=
  mk_app (text_editor a) (status_bar a) (fs a) (io_log a ++ [c])%list.

(** ** Toolkit accessors *)

Definition toPlainText (ed : TextEditor) : string := plain_text (qt ed).

Definition newline : ascii := ascii_of_nat 10.

(** [document().blockCount()]: one block per line of the text. *)
Fixpoint blockCount (t : string) : Z :=
  match t with
  | EmptyString => 1
  | String c t' => (if Ascii.eqb c newline then 1 else 0) + blockCount t'
  end.

(** The left one of the viewport margins. *)
Definition left_margin (ed : TextEditor) : Z :=
  match viewport_margins (qt ed) with (l, _, _, _) => l end.

(** ** class LineNumberArea *)

(** [_calculate_width]. *)
Definition _calculate_width (ed : TextEditor) : Z :=
  let digits := Z.of_nat (String.length (str_int (Z.max 1 (blockCount (toPlainText ed))))) in
  10 + digits * advance_9 (qt ed).

(** [update_width]. *)
Definition update_width (ed : TextEditor) : TextEditor :=
  te_set_lna (lna_set_width (_calculate_width ed) (line_number_area ed)) ed.

(** ** class TextEditor *)

(** [update_margins]. *)
Definition update_margins (ed : TextEditor) : TextEditor :=
  let ed1 :=
    if show_line_numbers ed
    then te_set_qt (qt_set_margins (lna_width (line_number_area ed), 0, 0, 0) (qt ed)) ed
    else te_set_qt (qt_set_margins (0, 0, 0, 0) (qt ed)) ed in
  te_set_lna (lna_set_visible (show_line_numbers ed1) (line_number_area ed1)) ed1.

(** [toggle_line_numbers]. *)
Definition toggle_line_numbers (ed : TextEditor) : TextEditor :=
  let ed1 := te_set_show (negb (show_line_numbers ed)) ed in
  let ed2 := update_margins ed1 in
  te_set_lna (lna_update (line_number_area ed2)) ed2.

(** [__init__], run on the freshly constructed [QTextEdit] part [q0] and
    the freshly constructed [QWidget] part [g0] of the gutter.
    [LineNumberArea.__init__] runs inside it and fixes the gutter's width. *)
Definition TextEditor__init__ (q0 : QTextEdit) (g0 : LineNumberArea) : TextEditor :=
  let ed0 := mk_te (setUndoRedoEnabled true q0) "" true g0 in
  let ed1 := te_set_lna (lna_set_width (_calculate_width ed0) g0) ed0 in
  update_margins ed1.

(** ** class StatusBar and the signal connections *)

(** [StatusBar.__init__]: the label's initial text. *)
Definition StatusBar__init__ (ed : TextEditor) : StatusBar :=
  mk_sb (str_or (current_file_path ed) "No file open") None.

(** [_update_file_label]. *)
Definition _update_file_label (a : App) : App :=
  app_set_status
    (sb_set_label (str_or (current_file_path (text_editor a)) "No file open") (status_bar a)) a.

(** [document().blockCountChanged], connected to [update_width]. *)
Definition emit_blockCountChanged (a : App) : App :=
  app_set_editor (update_width (text_editor a)) a.

(** [textChanged], connected to the gutter's [update] in
    [TextEditor.__init__] and then to [_update_file_label] in
    [StatusBar.__init__]. *)
Definition emit_textChanged (a : App) : App :=
  let ed := text_editor a in
  let ed1 := te_set_qt (qt_count_emission (qt ed)) ed in
  let ed2 := te_set_lna (lna_update (line_number_area ed1)) ed1 in
  _update_file_label (app_set_editor ed2 a).

(** The document receives the text [t]: through [setPlainText], [clear]
    or the user's editing.  The toolkit emits the document's signals.
    Texts are taken as the widget holds them, that is, as [toPlainText()]
    returns them: such a text comes back unchanged and has one block per
    line.  A text with a carriage return, a paragraph or line separator or
    a no-break space is changed by the widget on its way in or out; the
    model covers the texts that are not. *)
Definition document_set (t : string) (a : App) : App :=
  let ed := text_editor a in
  let old_count := blockCount (toPlainText ed) in
  let a1 := app_set_editor (te_set_qt (qt_set_text t (qt ed)) ed) a in
  let a2 := if Z.eqb (blockCount t) old_count then a1 else emit_blockCountChanged a1 in
  emit_textChanged a2.

(** [MainWindow.__init__] with [init_ui]: the editor, then the status bar. *)
Definition MainWindow__init__ (q0 : QTextEdit) (g0 : LineNumberArea)
    (fs0 : gmap string string) : App :=
  let ed := TextEditor__init__ q0 g0 in
  mk_app ed (StatusBar__init__ ed) fs0 [].

(** ** Slots as computations: state and exceptions *)

(** A computation changes the application and returns or raises; what it
    changed before raising stays changed. *)
Definition M (A : Type) : Type := App -> result A * App.

Global Instance M_ret : MRet M := fun A x a => (Return x, a).
Global Instance M_bind : MBind M := fun A B f m a =>
  match m a with
  | (Return x, a') => f x a'
  | (Raise e, a') => (Raise e, a')
  end.

Definition raise {A} (e : exn) : M A := fun a => (Raise e, a).
Definition modify (f : App -> App) : M unit := fun a => (Return tt, f a).
Definition gets {A} (f : App -> A) : M A := fun a => (Return (f a), a).

(** [try: body except Exception as e: handler(e)]. *)
Definition try_except {A} (body : M A) (handler : exn -> M A) : M A := fun a =>
  match body a with
  | (Return x, a') => (Return x, a')
  | (Raise e, a') => handler e a'
  end.

(** What the world does while one slot runs: the answer of the file dialog
    the slot opens, and, for each step of its [with open(...)] block,
    whether that step fails. *)
Record Env := mk_env {
  dialog_answer : result string;   (* file_path of getOpenFileName / getSaveFileName *)
  open_fault : option exn;         (* open(...) raises *)
  rw_fault : option exn;           (* file.read() / file.write(...) raises *)
  close_fault : option exn         (* closing the file on leaving the block raises *)
}.

(** [QFileDialog.getOpenFileName] and [getSaveFileName]: the chosen path,
    empty when the dialog is cancelled. *)
Definition getOpenFileName (env : Env) : M string := fun a => (dialog_answer env, a).
Definition getSaveFileName (env : Env) : M string := fun a => (dialog_answer env, a).

(** An open text file. *)
Record file := mk_file { f_path : string; f_mode : open_mode; f_data : string }.

Definition FileNotFoundError (path : string) : exn :=
  mk_exn "FileNotFoundError" ("[Errno 2] No such file or directory: '" ++ path ++ "'").

(** The built-in [open(path, mode, encoding=...)]: reading needs an
    existing file, writing creates or truncates it. *)
Definition py_open (env : Env) (path : string) (mode : open_mode) (encoding : string)
    : M file := fun a =>
  let a1 := app_log (mk_io path mode encoding) a in
  match open_fault env with
  | Some e => (Raise e, a1)
  | None =>
      match mode with
      | ModeR =>
          match fs a1 !! path with
          | Some data => (Return (mk_file path ModeR data), a1)
          | None => (Raise (FileNotFoundError path), a1)
          end
      | ModeW => (Return (mk_file path ModeW ""), app_set_fs (<[path := ""]> (fs a1)) a1)
      end
  end.

(** [file.read()]: the file's text, as the text layer hands it over. *)
Definition file_read (env : Env) (f : file) : M string := fun a =>
  match rw_fault env with
  | Some e => (Raise e, a)
  | None => (Return (f_data f), a)
  end.

(** [file.write(text)].  A write that goes through puts the text into
    the file.  What a write that raises leaves there (any part of the text
    may have reached the file) is not modelled: the file is kept as [open]
    left it, and the properties below that concern what a file holds are
    about writes that go through. *)
Definition file_write (env : Env) (f : file) (text : string) : M unit := fun a =>
  match rw_fault env with
  | Some e => (Raise e, a)
  | None => (Return tt, app_set_fs (<[f_path f := text]> (fs a)) a)
  end.

(** [with open(path, mode, encoding=...) as file: body]: the file is closed
    on the way out, whether the body returned or raised. *)
Definition with_open {A} (env : Env) (path : string) (mode : open_mode)
    (encoding : string) (body : file -> M A) : M A := fun a =>
  match py_open env path mode encoding a with
  | (Raise e, a1) => (Raise e, a1)
  | (Return f, a1) =>
      match body f a1, close_fault env with
      | (_, a2), Some e' => (Raise e', a2)
      | (r, a2), None => (r, a2)
      end
  end.

(** [text_editor.setPlainText], [text_editor.clear], the attribute
    assignment, and [statusBar().showMessage]. *)
Definition setPlainText (t : string) : M unit := modify (document_set t).
Definition clear : M unit := modify (document_set "").
Definition set_current_file_path (p : string) : M unit :=
  modify (fun a => app_set_editor (te_set_path p (text_editor a)) a).
Definition showMessage (msg : string) (timeout : Z) : M unit :=
  modify (fun a => app_set_status (sb_showMessage msg timeout (status_bar a)) a).

(** ** class FileMenu and class MainWindow: the file operations *)

(** The [with] statement of [_open_file]: read the file into the editor. *)
Definition open_block (env : Env) (file_path : string) : M unit :=
  with_open env file_path ModeR "utf-8"
    (fun file => data ← file_read env file; setPlainText data).

(** The [with] statement of [_save_as_file]: write the editor's text. *)
Definition save_as_block (env : Env) (file_path : string) : M unit :=
  with_open env file_path ModeW "utf-8"
    (fun file => text ← gets (fun a => toPlainText (text_editor a));
                 file_write env file text).

(** The [with] statement of [save_file]: write [text]. *)
Definition save_block (env : Env) (file_path text : string) : M unit :=
  with_open env file_path ModeW "utf-8" (fun file => file_write env file text).

(** [FileMenu._open_file]. *)
Definition _open_file (env : Env) : M unit :=
  try_except
    (file_path ← getOpenFileName env;
     if truthy file_path then
       open_block env file_path;;
       set_current_file_path file_path;;
       showMessage ("Opened: " ++ file_path) 5000
     else mret tt)
    (fun e => showMessage ("Error opening file: " ++ exn_str e) 5000).

(** [MainWindow._save_as_file]. *)
Definition _save_as_file (env : Env) : M unit :=
  file_path ← getSaveFileName env;
  if truthy file_path then
    try_except
      (save_as_block env file_path;;
       set_current_file_path file_path)
      (fun e => showMessage ("Error saving file: " ++ exn_str e) 5000)
  else mret tt.

(** [MainWindow.save_file]; [FileMenu._save_file] calls it. *)
Definition save_file (env : Env) : M unit :=
  try_except
    (text ← gets (fun a => toPlainText (text_editor a));
     file_path ← gets (fun a => current_file_path (text_editor a));
     if truthy file_path then
       save_block env file_path text
     else _save_as_file env)
    (fun e => showMessage ("Error saving file: " ++ exn_str e) 5000).

(** [MainWindow.new_file]. *)
Definition new_file (env : Env) : M unit :=
  try_except
    (file_path ← getSaveFileName env;
     if truthy file_path then
       clear;;
       set_current_file_path file_path
     else mret tt)
    (fun e => showMessage ("Error creating new file: " ++ exn_str e) 5000).

(** ** The gutter's paint routine *)

(** A text block of the document: [block.isVisible()]. *)
Record Block := mk_block { blockVisible : bool }.

(** A [QTextBlock] is a position in the document's list of blocks;
    positions past the end are the invalid block. *)
Definition isValid (doc : list Block) (b : nat) : bool := Nat.ltb b (length doc).
Definition next (b : nat) : nat := S b.
Definition blockNumber (doc : list Block) (b : nat) : Z :=
  if isValid doc b then Z.of_nat b else -1.
Definition isVisible (doc : list Block) (b : nat) : bool :=
  match doc !! b with Some blk => blockVisible blk | None => false end.

(** [QRect]; [bottom()] is [top() + height() - 1]. *)
Record QRect := mk_rect { rect_x : Z; rect_y : Z; rect_w : Z; rect_h : Z }.
Definition rect_top (r : QRect) : Z := rect_y r.
Definition rect_bottom (r : QRect) : Z := rect_y r + rect_h r - 1.

Inductive GlobalColor := lightGray | black.
Inductive AlignmentFlag := AlignLeft.

(** The calls made on the [QPainter]. *)
Inductive paint_op :=
| FillRect (r : QRect) (c : GlobalColor)
| SetPen (c : GlobalColor)
| DrawText (x y w h : Z) (flag : AlignmentFlag) (text : string).

(** [int(x)] for a float: truncation towards zero. *)
Definition py_int (x : Q) : Z := Z.quot (Qnum x) (Zpos (Qden x)).

(** Computations that return or raise and touch no state. *)
Global Instance result_ret : MRet result := fun A x => Return x.
Global Instance result_bind : MBind result := fun A B f r =>
  match r with
  | Return x => f x
  | Raise e => Raise e
  end.

Definition AttributeError (name : string) : exn :=
  mk_exn "AttributeError" ("'TextEditor' object has no attribute '" ++ name ++ "'").

(** The four layout methods the paint routine calls on the editor:
    [firstVisibleBlock()], the top of [blockBoundingGeometry(block)], the
    vertical part of [contentOffset()] and the height of
    [blockBoundingRect(block)].  They are methods of [QPlainTextEdit].
    The editor is declared [class TextEditor(QTextEdit)], and [QTextEdit]
    has none of them: looking the method up on the editor raises
    [AttributeError], whatever the block. *)
Definition firstVisibleBlock (ed : TextEditor) : result nat :=
  Raise (AttributeError "firstVisibleBlock").
Definition blockBoundingGeometry (ed : TextEditor) (block : nat) : result Q :=
  Raise (AttributeError "blockBoundingGeometry").
Definition contentOffset (ed : TextEditor) : result Q :=
  Raise (AttributeError "contentOffset").
Definition blockBoundingRect (ed : TextEditor) (block : nat) : result Q :=
  Raise (AttributeError "blockBoundingRect").

(** The local variables of [paintEvent], with the painter calls so far. *)
Record paint_state := mk_ps {
  ps_block : nat;
  ps_block_number : Z;
  ps_top : Q;
  ps_bottom : Q;
  ps_painted : list paint_op
}.

(** The statements between [fillRect] and the loop: the first visible
    block, its number, its top and its bottom. *)
Definition paint_entry (ed : TextEditor) (doc : list Block) (painted : list paint_op)
    : result paint_state :=
  block ← firstVisibleBlock ed;
  let block_number := blockNumber doc block in
  geometry_top ← blockBoundingGeometry ed block;
  offset ← contentOffset ed;
  let top := Qplus geometry_top offset in
  height ← blockBoundingRect ed block;
  mret (mk_ps block block_number top (Qplus top height) painted).

(** The loop's condition. *)
Definition paint_cond (doc : list Block) (rect : QRect) (s : paint_state) : bool :=
  isValid doc (ps_block s) && Qle_bool (ps_top s) (inject_Z (rect_bottom rect)).

(** The painter calls for one line number. *)
Definition draw_number (ed : TextEditor) (top : Q) (block_number : Z) : list paint_op :=
  [ SetPen black;
    DrawText 0 (py_int top) (lna_width (line_number_area ed)) (font_height (qt ed))
             AlignLeft (str_int (block_number + 1)) ].

(** One pass through the loop's body: the painter calls made by its end,
    and the variables for the next pass unless the pass raised. *)
Definition paint_body (ed : TextEditor) (doc : list Block) (rect : QRect) (s : paint_state)
    : list paint_op * result paint_state :=
  let painted :=
    if isVisible doc (ps_block s) && Qle_bool (inject_Z (rect_top rect)) (ps_bottom s)
    then (ps_painted s ++ draw_number ed (ps_top s) (ps_block_number s))%list
    else ps_painted s in
  let block := next (ps_block s) in
  let top := ps_bottom s in
  (painted,
   height ← blockBoundingRect ed block;
   mret (mk_ps block (ps_block_number s + 1) top (Qplus top height) painted)).

(** The [while] loop, run for at most [fuel] tests of its condition: the
    painter calls made, and whether the loop ended or a pass raised. *)
Fixpoint paint_while (fuel : nat) (ed : TextEditor) (doc : list Block) (rect : QRect)
    (s : paint_state) : option (list paint_op * result unit) :=
  match fuel with
  | O => None
  | S fuel' =>
      if paint_cond doc rect s then
        match paint_body ed doc rect s with
        | (_, Return s') => paint_while fuel' ed doc rect s'
        | (painted, Raise e) => Some (painted, Raise e)
        end
      else Some (ps_painted s, Return tt)
  end.

(** [paintEvent]: the painter calls it makes and how it ends. *)
Definition paintEvent_fuel (fuel : nat) (ed : TextEditor) (doc : list Block) (rect : QRect)
    : option (list paint_op * result unit) :=
  if negb (show_line_numbers ed) then Some ([], Return tt)
  else
    let painted := [FillRect rect lightGray] in
    match paint_entry ed doc painted with
    | Return s => paint_while fuel ed doc rect s
    | Raise e => Some (painted, Raise e)
    end.

(** One test of the loop's condition per block and a last one would
    suffice; as it is, no test is reached (see [paintEvent_any_fuel]). *)
Definition paintEvent (ed : TextEditor) (doc : list Block) (rect : QRect)
    : option (list paint_op * result unit) :=
  paintEvent_fuel (S (length doc)) ed doc rect.

(** ** Menus, shortcuts and the application's steps *)

(** The slots the program defines and connects. *)
Inductive slot :=
| Slot_open_file
| Slot_save_file
| Slot_save_as_file
| Slot_new_file
| Slot_toggle_line_numbers
| Slot_show_about_dialog.

(** [FileMenu._setup_actions]: name, shortcut, handler. *)
Definition file_menu_actions : list (string * option string * slot) :=
  [ ("Open", Some "Ctrl+O", Slot_open_file);
    ("Save", Some "Ctrl+S", Slot_save_file);
    ("Save As", None, Slot_save_as_file) ].

(** [ViewMenu._setup_actions] and [MenuBar._create_about_menu]. *)
Definition view_menu_actions : list (string * option string * slot) :=
  [ ("Show Line Numbers", None, Slot_toggle_line_numbers) ].
Definition about_menu_actions : list (string * option string * slot) :=
  [ ("About Gapp Text Editor", None, Slot_show_about_dialog) ].

(** [MainWindow._setup_shortcuts]. *)
Definition shortcuts : list (string * slot) :=
  [ ("Ctrl+N", Slot_new_file); ("Ctrl+S", Slot_save_file) ].

(** Every key sequence the program binds, with its slot. *)
Definition key_bindings : list (string * slot) :=
  (omap (fun '(_, k, h) => (fun k' => (k', h)) <$> k)
        (file_menu_actions ++ view_menu_actions ++ about_menu_actions)
   ++ shortcuts)%list.

(** The slot a key sequence triggers.  A sequence the program registers
    once triggers its slot; one it registers more than once is ambiguous
    for the toolkit and triggers none; one it does not register goes to
    the focused widget. *)
Definition bound_slot (key : string) : option slot :=
  match List.filter (fun kh => String.eqb (fst kh) key) key_bindings with
  | [kh] => Some (snd kh)
  | _ => None
  end.

(** Running a slot.  The about dialog changes nothing here. *)
Definition run_slot (h : slot) (env : Env) : M unit :=
  match h with
  | Slot_open_file => _open_file env
  | Slot_save_file => save_file env
  | Slot_save_as_file => _save_as_file env
  | Slot_new_file => new_file env
  | Slot_toggle_line_numbers =>
      modify (fun a => app_set_editor (toggle_line_numbers (text_editor a)) a)
  | Slot_show_about_dialog => mret tt
  end.

(** What can happen to the running application: a slot is triggered, the
    user edits the document so that it reads [t], or the view is scrolled
    (the scroll bar's [valueChanged] is connected to the gutter's
    [update]).  A slot that lets an exception escape leaves the
    application as it was when the exception was raised. *)
Inductive action :=
| Trigger (h : slot) (env : Env)
| UserEdit (t : string)
| Scroll.

Definition step (act : action) (a : App) : App :=
  match act with
  | Trigger h env => snd (run_slot h env a)
  | UserEdit t => document_set t a
  | Scroll =>
      let ed := text_editor a in
      app_set_editor (te_set_lna (lna_update (line_number_area ed)) ed) a
  end.

Definition run (acts : list action) (a : App) : App :=
  fold_left (fun a act => step act a) acts a.

(** The states the application can be in. *)
Inductive reachable : App -> Prop :=
| reach_init q0 g0 fs0 : reachable (MainWindow__init__ q0 g0 fs0)
| reach_step act a : reachable a -> reachable (step act a).

(** ** Notions used in the properties *)

(** A file operation went through: nothing failed. *)
Definition no_faults (env : Env) : Prop :=
  open_fault env = None /\ rw_fault env = None /\ close_fault env = None.

(** Where [_open_file] can fail before it touches the editor: in the
    dialog, in [open], or in [read]. *)
Inductive open_fails_early (env : Env) (a : App) : exn -> Prop :=
| fails_in_dialog e :
    dialog_answer env = Raise e -> open_fails_early env a e
| fails_in_open p e :
    dialog_answer env = Return p -> truthy p = true ->
    fst (py_open env p ModeR "utf-8" a) = Raise e -> open_fails_early env a e
| fails_in_read p f e :
    dialog_answer env = Return p -> truthy p = true ->
    fst (py_open env p ModeR "utf-8" a) = Return f ->
    rw_fault env = Some e -> open_fails_early env a e.

(** The gutter and the margins are as [update_margins] leaves them. *)
Definition margins_updated (ed : TextEditor) : Prop :=
  lna_visible (line_number_area ed) = show_line_numbers ed /\
  viewport_margins (qt ed) =
    if show_line_numbers ed then (lna_width (line_number_area ed), 0, 0, 0)
    else (0, 0, 0, 0).

(** What holds of the gutter in every state the application reaches: it is
    visible exactly when the flag is set, and the margins are zero when
    the flag is not set. *)
Definition toggle_inv (a : App) : Prop :=
  let ed := text_editor a in
  lna_visible (line_number_area ed) = show_line_numbers ed /\
  (show_line_numbers ed = false -> viewport_margins (qt ed) = (0, 0, 0, 0)).

(** The key sequences the toolkit's text widget answers with undo and redo. *)
Definition undo_redo_keys : list string := ["Ctrl+Z"; "Ctrl+Y"; "Ctrl+Shift+Z"].

(** Every call of [open] so far asked for UTF-8. *)
Definition log_utf8 (a : App) : Prop :=
  Forall (fun c => io_encoding c = "utf-8") (io_log a).

(** The path a save goes to: the current file's, or else the dialog's. *)
Definition save_target (env : Env) (a : App) : result string :=
  if truthy (current_file_path (text_editor a))
  then Return (current_file_path (text_editor a))
  else dialog_answer env.

(** ** Example states *)

(** A fresh toolkit editor with a font whose digits are 8 wide and 16
    high, a fresh gutter widget, and the application started on an empty
    file system. *)
Definition fresh_qt : QTextEdit := mk_qte "" true (0, 0, 0, 0) 8 16 0.
Definition fresh_gutter : LineNumberArea := mk_lna 100 false 0.
Definition app0 : App := MainWindow__init__ fresh_qt fresh_gutter ∅.

(** The user picks [p] in the dialog and nothing fails. *)
Definition chose (p : string) : Env := mk_env (Return p) None None None.

(** A text of ten lines, and the application after the user typed it. *)
Definition ten_lines : string :=
  String.concat (String newline "") ["1"; "2"; "3"; "4"; "5"; "6"; "7"; "8"; "9"; "10"].
Definition app_ten : App := step (UserEdit ten_lines) app0.

(** The application after one toggle of the line numbers. *)
Definition app_hidden : App := step (Trigger Slot_toggle_line_numbers (chose "")) app0.

(** The application after the user typed [x] and saved it as [a.txt]. *)
Definition app_saved : App :=
  run [UserEdit "x"; Trigger Slot_save_as_file (chose "a.txt")] app0.

(** The user picks [p], and [open] is refused. *)
Definition PermissionError (p : string) : exn :=
  mk_exn "PermissionError" ("[Errno 13] Permission denied: '" ++ p ++ "'").
Definition denied (p : string) : Env :=
  mk_env (Return p) (Some (PermissionError p)) None None.

(** No dialog is answered, and [open] is refused for [a.txt]. *)
Definition denied_current : Env :=
  mk_env (Return "") (Some (PermissionError "a.txt")) None None.

(** The dialog itself fails. *)
Definition dialog_broken : Env :=
  mk_env (Raise (mk_exn "RuntimeError" "dialog failed")) None None None.


(** The application after the user typed [hello]. *)
Definition app_hello : App := step (UserEdit "hello") app0.

(** ** Further definitions used in the properties *)

(** A status bar message the program can have shown: an "Opened: ..."
    note or an "Error ..." report, always for 5000 ms. *)
Definition program_message (m : option (string * Z)) : Prop :=
  match m with
  | None => True
  | Some (msg, timeout) =>
      timeout = 5000 /\
      ((exists rest, msg = "Opened: " ++ rest) \/ (exists rest, msg = "Error " ++ rest))
  end.

(** The texts of the [drawText] calls, in order. *)
Definition labels (ops : list paint_op) : list string :=
  flat_map (fun op => match op with DrawText _ _ _ _ _ t => [t] | _ => [] end) ops.

(** *** class ViewMenu *)

(** The window together with the check mark of the checkable action
    "Show Line Numbers". *)
Record Gui := mk_gui { gui_app : App; line_numbers_checked : bool }.

(** [ViewMenu._setup_actions]: the check mark starts as the flag is. *)
Definition ViewMenu_setup_actions (a : App) : Gui :=
  mk_gui a (show_line_numbers (text_editor a)).

(** A step of the window.  [toggle_line_numbers] is connected to the
    action's [triggered] only, and a checkable action flips its check
    mark when it is triggered. *)
Definition gui_step (act : action) (g : Gui) : Gui :=
  match act with
  | Trigger Slot_toggle_line_numbers _ =>
      mk_gui (step act (gui_app g)) (negb (line_numbers_checked g))
  | _ => mk_gui (step act (gui_app g)) (line_numbers_checked g)
  end.

Inductive gui_reachable : Gui -> Prop :=
| gui_init q0 g0 fs0 :
    gui_reachable (ViewMenu_setup_actions (MainWindow__init__ q0 g0 fs0))
| gui_next act g : gui_reachable g -> gui_reachable (gui_step act g).

(** * Properties *)

(** ** What a change of the document touches *)

Lemma document_set_editor t a :
  let ed := text_editor a in
  let ed' := text_editor (document_set t a) in
  toPlainText ed' = t /\
  current_file_path ed' = current_file_path ed /\
  show_line_numbers ed' = show_line_numbers ed /\
  undo_redo_enabled (qt ed') = undo_redo_enabled (qt ed) /\
  viewport_margins (qt ed') = viewport_margins (qt ed) /\
  lna_visible (line_number_area ed') = lna_visible (line_number_area ed) /\
  textChanged_emitted (qt ed') = S (textChanged_emitted (qt ed)).
Proof.
  unfold document_set. cbn zeta.
  destruct (Z.eqb _ _); cbn; repeat split; reflexivity.
Qed.

Lemma document_set_world t a :
  fs (document_set t a) = fs a /\ io_log (document_set t a) = io_log a.
Proof. unfold document_set. cbn zeta. destruct (Z.eqb _ _); cbn; auto. Qed.

Lemma document_set_label t a :
  file_label (status_bar (document_set t a)) =
  str_or (current_file_path (text_editor a)) "No file open".
Proof. unfold document_set. cbn zeta. destruct (Z.eqb _ _); reflexivity. Qed.

Lemma document_set_message t a :
  status_message (status_bar (document_set t a)) = status_message (status_bar a).
Proof. unfold document_set. cbn zeta. destruct (Z.eqb _ _); reflexivity. Qed.

(** ** Unfolding the slots *)

Ltac unfold_slots :=
  unfold run_slot, _open_file, save_file, _save_as_file, new_file,
    open_block, save_block, save_as_block, with_open, py_open,
    file_read, file_write, try_except, getOpenFileName, getSaveFileName,
    setPlainText, clear, set_current_file_path, showMessage, modify, gets,
    raise, mbind, M_bind, mret, M_ret in *.

Ltac sim := cbn -[lookup insert document_set String.append FileNotFoundError] in *.

Ltac break_match :=
  repeat (match goal with
          | |- context [match ?x with _ => _ end] =>
              lazymatch x with
              | context [match _ with _ => _ end] => fail
              | _ => destruct x eqn:?
              end
          end; sim).

Ltac use_document_set :=
  repeat match goal with
         | |- context [document_set ?t ?a] =>
             let H := fresh "Hdoc" in
             let W := fresh "Hworld" in
             pose proof (document_set_editor t a) as H;
             pose proof (document_set_world t a) as W;
             pose proof (document_set_label t a);
             pose proof (document_set_message t a);
             cbn zeta in H; generalize dependent (document_set t a); intros
         end.

(** ** The line-number toggle *)

Lemma update_margins_updated ed : margins_updated (update_margins ed).
Proof. unfold margins_updated, update_margins. destruct (show_line_numbers ed) eqn:E; cbn; rewrite ?E; auto. Qed.

Lemma toggle_updated ed : margins_updated (toggle_line_numbers ed).
Proof.
  unfold margins_updated, toggle_line_numbers, update_margins.
  destruct (show_line_numbers ed); cbn; auto.
Qed.

Lemma toggle_inv_slot h env a : toggle_inv a -> toggle_inv (snd (run_slot h env a)).
Proof.
  unfold toggle_inv. intros [Hv Hm].
  destruct h; unfold_slots; sim; break_match; simplify_eq; sim;
    use_document_set; sim; intuition (try congruence);
    try (destruct (show_line_numbers (text_editor a)); sim; congruence);
    try (rewrite <- Hm by congruence; congruence).
Qed.

Lemma reachable_toggle_inv a : reachable a -> toggle_inv a.
Proof.
  induction 1 as [q0 g0 fs0 | act a Hr IH].
  - unfold toggle_inv. cbn. auto. split; [reflexivity | discriminate].
  - destruct act as [h env | t | ].
    + apply toggle_inv_slot, IH.
    + unfold toggle_inv in *. cbn [step]. destruct IH as [Hv Hm].
      use_document_set. sim. intuition (try congruence).
      rewrite <- Hm by congruence. congruence.
    + exact IH.
Qed.

Lemma paintEvent_hidden ed doc rect :
  show_line_numbers ed = false -> paintEvent ed doc rect = Some ([], Return tt).
Proof. intros H. unfold paintEvent, paintEvent_fuel. rewrite H. reflexivity. Qed.

(** What the code keeps of the toggle's contract.  Each toggle flips the
    flag.  In every state the application reaches: while the flag is off
    the gutter's paint routine makes no painter call and returns, and the
    left margin is 0; while it is on the gutter is visible.  After
    construction, and after a toggle that turns the flag on, the left
    margin is the gutter's width. *)
Lemma toggle_flag_gutter_margins (a : App) (doc : list Block) (rect : QRect)
    (q0 : QTextEdit) (g0 : LineNumberArea) :
  reachable a ->
  let ed := text_editor a in
  let ed' := toggle_line_numbers ed in
  show_line_numbers ed' = negb (show_line_numbers ed) /\
  (show_line_numbers ed = false ->
     paintEvent ed doc rect = Some ([], Return tt) /\ left_margin ed = 0) /\
  (show_line_numbers ed = true -> lna_visible (line_number_area ed) = true) /\
  (show_line_numbers ed' = true ->
     left_margin ed' = lna_width (line_number_area ed')) /\
  left_margin (TextEditor__init__ q0 g0) =
    lna_width (line_number_area (TextEditor__init__ q0 g0)).
Proof.
  intros Hr ed ed'. destruct (reachable_toggle_inv a Hr) as [Hv Hm].
  fold ed in Hv, Hm. split; [| split; [| split; [| split]]].
  - subst ed'. unfold toggle_line_numbers, update_margins.
    destruct (show_line_numbers ed); reflexivity.
  - intros H. split; [now apply paintEvent_hidden |].
    unfold left_margin. now rewrite Hm.
  - intros H. now rewrite Hv.
  - intros H. destruct (toggle_updated ed) as [_ Hmar]. fold ed' in Hmar.
    unfold left_margin. rewrite Hmar, H. reflexivity.
  - reflexivity.
Qed.

(** C5: the code breaks the claim.  [update_margins] sets the left margin
    from the gutter's width, and [__init__] calls it right after the width
    is fixed; but [update_width], which [blockCountChanged] triggers,
    changes the width and leaves the margin.  Run on the input: after the
    user has typed ten lines the flag is on, the gutter has grown from 18
    to 26, and the left margin is still 18. *)
Lemma margin_stale_after_edit :
  left_margin (text_editor app0) = lna_width (line_number_area (text_editor app0)) /\
  reachable app_ten /\
  show_line_numbers (text_editor app_ten) = true /\
  left_margin (text_editor app_ten) = 18 /\
  lna_width (line_number_area (text_editor app_ten)) = 26 /\
  left_margin (text_editor app_ten) <> lna_width (line_number_area (text_editor app_ten)).
Proof.
  split; [reflexivity |].
  split; [apply reach_step, reach_init |].
  repeat split; try reflexivity. discriminate.
Qed.

(** What two toggles do restore: the flag, from every state; the gutter's
    visibility, from every state the application reaches; the viewport
    margins, from every state in which they are as [update_margins] sets
    them for the flag and the gutter's width. *)
Lemma toggle_twice_restores (a : App) :
  let ed := text_editor a in
  let ed2 := toggle_line_numbers (toggle_line_numbers ed) in
  show_line_numbers ed2 = show_line_numbers ed /\
  (reachable a -> lna_visible (line_number_area ed2) = lna_visible (line_number_area ed)) /\
  (margins_updated ed -> viewport_margins (qt ed2) = viewport_margins (qt ed)).
Proof.
  cbn zeta. split; [| split].
  - unfold toggle_line_numbers, update_margins.
    destruct (show_line_numbers (text_editor a)); reflexivity.
  - intros Hr. destruct (reachable_toggle_inv a Hr) as [Hv _]. rewrite Hv.
    unfold toggle_line_numbers, update_margins.
    destruct (show_line_numbers (text_editor a)); reflexivity.
  - intros [Hv Hm]. rewrite Hm.
    unfold toggle_line_numbers, update_margins.
    destruct (show_line_numbers (text_editor a)); reflexivity.
Qed.

(** C9: the code breaks the claim, by the slip that breaks C5: the margin
    the first toggle finds may be stale, and the second toggle sets the
    margin from the gutter's current width.  Run on the input: from the
    state with ten lines typed, two toggles restore the flag and the
    gutter's visibility and leave the left margin at 26 where it was
    18. *)
Lemma toggle_twice_changes_stale_margin :
  reachable app_ten /\
  show_line_numbers (toggle_line_numbers (toggle_line_numbers (text_editor app_ten)))
  = show_line_numbers (text_editor app_ten) /\
  lna_visible (line_number_area (toggle_line_numbers (toggle_line_numbers (text_editor app_ten))))
  = lna_visible (line_number_area (text_editor app_ten)) /\
  viewport_margins (qt (text_editor app_ten)) = (18, 0, 0, 0) /\
  viewport_margins (qt (toggle_line_numbers (toggle_line_numbers (text_editor app_ten))))
  = (26, 0, 0, 0) /\
  viewport_margins (qt (toggle_line_numbers (toggle_line_numbers (text_editor app_ten))))
  <> viewport_margins (qt (text_editor app_ten)).
Proof.
  split; [apply reach_step, reach_init |].
  repeat split; try reflexivity. discriminate.
Qed.

(** ** Undo and redo *)

Lemma slot_keeps_undo_redo h env a :
  undo_redo_enabled (qt (text_editor (snd (run_slot h env a)))) =
  undo_redo_enabled (qt (text_editor a)).
Proof.
  destruct h; unfold_slots; sim; break_match; simplify_eq; sim;
    use_document_set; sim; intuition (try congruence).
  all: unfold toggle_line_numbers, update_margins;
    destruct (show_line_numbers (text_editor a)); reflexivity.
Qed.

Lemma reachable_undo_redo a :
  reachable a -> undo_redo_enabled (qt (text_editor a)) = true.
Proof.
  induction 1 as [q0 g0 fs0 | act a Hr IH].
  - reflexivity.
  - destruct act as [h env | t | ]; cbn [step].
    + now rewrite slot_keeps_undo_redo.
    + use_document_set. intuition congruence.
    + exact IH.
Qed.

(** C7.  The editor's constructor enables the widget's undo/redo support,
    whatever the fresh widget's setting was; no slot of the program changes
    that setting, so it is on in every state the application reaches; and
    the program binds none of the undo and redo keys to a slot of its own,
    so they go to the widget. *)
Theorem undo_redo_left_to_widget (q0 : QTextEdit) (g0 : LineNumberArea)
    (h : slot) (env : Env) (a : App) (key : string) :
  undo_redo_enabled (qt (TextEditor__init__ q0 g0)) = true /\
  undo_redo_enabled (qt (text_editor (snd (run_slot h env a)))) =
    undo_redo_enabled (qt (text_editor a)) /\
  (reachable a -> undo_redo_enabled (qt (text_editor a)) = true) /\
  (In key undo_redo_keys -> bound_slot key = None).
Proof.
  split; [| split; [| split]].
  - reflexivity.
  - apply slot_keeps_undo_redo.
  - apply reachable_undo_redo.
  - intros Hk. cbn in Hk.
    destruct Hk as [<- | [<- | [<- | []]]]; reflexivity.
Qed.

Lemma undo_redo_left_to_widget_witness :
  reachable app_saved /\
  undo_redo_enabled (qt (text_editor app_saved)) = true /\
  bound_slot "Ctrl+Z" = None.
Proof.
  assert (R : reachable app_saved) by (do 2 apply reach_step; apply reach_init).
  destruct (undo_redo_left_to_widget (mk_qte "" false (0, 0, 0, 0) 8 16 0) fresh_gutter
              Slot_new_file (chose "b.txt") app_saved "Ctrl+Z") as (_ & _ & Hr & Hk).
  split; [exact R | split; [exact (Hr R) |]].
  apply Hk. cbn. auto.
Defined.

(** ** The encoding of file I/O *)

Lemma slot_opens_utf8 h env a :
  exists calls,
    io_log (snd (run_slot h env a)) = (io_log a ++ calls)%list /\
    Forall (fun c => io_encoding c = "utf-8") calls.
Proof.
  destruct h; unfold_slots; sim; break_match; simplify_eq; sim;
    use_document_set; sim;
    repeat match goal with H : _ /\ _ |- _ => destruct H end;
    repeat match goal with H : io_log _ = _ |- _ => rewrite H end;
    first [ exists []; split; [now rewrite app_nil_r | constructor]
          | eexists [_]; split; [reflexivity | repeat constructor] ].
Qed.

Lemma slot_log_utf8 h env a : log_utf8 a -> log_utf8 (snd (run_slot h env a)).
Proof.
  unfold log_utf8. intros Hl.
  destruct (slot_opens_utf8 h env a) as (calls & -> & Hc).
  apply Forall_app. now split.
Qed.

(** C3.  Whatever slot runs, every call of [open] it makes, for reading or
    for writing, names the encoding UTF-8; hence in every state the
    application reaches, every call of [open] made so far did. *)
Theorem file_io_is_utf8 (a : App) (h : slot) (env : Env) :
  (exists calls,
     io_log (snd (run_slot h env a)) = (io_log a ++ calls)%list /\
     Forall (fun c => io_encoding c = "utf-8") calls) /\
  (reachable a -> Forall (fun c => io_encoding c = "utf-8") (io_log a)).
Proof.
  split; [apply slot_opens_utf8 |].
  clear h env.
  induction 1 as [q0 g0 fs0 | act a Hr IH].
  - constructor.
  - destruct act as [h env | t | ]; cbn [step].
    + apply slot_log_utf8, IH.
    + destruct (document_set_world t a) as [_ ->]. exact IH.
    + exact IH.
Qed.

Lemma file_io_is_utf8_witness :
  io_log app_saved = [mk_io "a.txt" ModeW "utf-8"] /\
  Forall (fun c => io_encoding c = "utf-8") (io_log app_saved).
Proof.
  split; [reflexivity |].
  apply (file_io_is_utf8 app_saved Slot_open_file (chose "a.txt")).
  do 2 apply reach_step. apply reach_init.
Defined.

(** ** Opening a file *)

(** C8.  When [_open_file] fails in the dialog, in [open] or in [read],
    the exception is reported and goes no further, and the editor's text
    and [current_file_path] are what they were. *)
Theorem open_file_atomic_on_failure (env : Env) (a : App) (e : exn) :
  open_fails_early env a e ->
  let a' := snd (_open_file env a) in
  fst (_open_file env a) = Return tt /\
  toPlainText (text_editor a') = toPlainText (text_editor a) /\
  current_file_path (text_editor a') = current_file_path (text_editor a) /\
  exists e', status_message (status_bar a') =
             Some ("Error opening file: " ++ exn_str e', 5000).
Proof.
  intros H. cbn zeta.
  destruct H as [e Hd | p e Hd Ht Ho | p f e Hd Ht Ho Hr];
    unfold_slots; rewrite Hd; sim; rewrite ?Ht in *; sim.
  - eauto 6.
  - break_match; simplify_eq; sim; repeat split; eexists; reflexivity.
  - rewrite Hr. break_match; simplify_eq; sim; repeat split; eexists; reflexivity.
Qed.

Lemma open_file_atomic_on_failure_witness :
  open_fails_early (chose "missing.txt") app_saved (FileNotFoundError "missing.txt") /\
  toPlainText (text_editor (snd (_open_file (chose "missing.txt") app_saved))) = "x" /\
  current_file_path (text_editor (snd (_open_file (chose "missing.txt") app_saved)))
  = "a.txt".
Proof.
  assert (F : open_fails_early (chose "missing.txt") app_saved
                (FileNotFoundError "missing.txt"))
    by (apply fails_in_open with (p := "missing.txt"); reflexivity).
  split; [exact F |].
  destruct (open_file_atomic_on_failure _ _ _ F) as (_ & Ht & Hp & _).
  split; [exact Ht | exact Hp].
Defined.

(** ** Errors of file I/O *)

Lemma save_as_block_save_block env p a :
  save_as_block env p a = save_block env p (toPlainText (text_editor a)) a.
Proof. unfold_slots. sim. break_match; simplify_eq; reflexivity. Qed.

Lemma open_file_returns env a : fst (_open_file env a) = Return tt.
Proof. unfold_slots. sim. break_match; simplify_eq; sim; try reflexivity; now destruct a0. Qed.

Lemma new_file_returns env a : fst (new_file env a) = Return tt.
Proof. unfold_slots. sim. break_match; simplify_eq; sim; reflexivity. Qed.

Lemma save_as_file_returns env a p :
  dialog_answer env = Return p -> fst (_save_as_file env a) = Return tt.
Proof.
  intros Hd. unfold_slots. rewrite Hd. sim.
  break_match; simplify_eq; sim; reflexivity.
Qed.

Lemma save_file_returns env a : fst (save_file env a) = Return tt.
Proof.
  unfold_slots. sim. break_match; simplify_eq; sim; try reflexivity;
    match goal with u : unit |- _ => now destruct u end.
Qed.

(** C2.  Each file operation returns normally whatever its file I/O
    raises: [_open_file], [save_file] and [new_file] let nothing out, and
    [_save_as_file] lets nothing out once its dialog has answered.  When
    the operation's [with open(...)] block raises [e], the status bar
    shows the operation's message with [str(e)].  [new_file] performs no
    file I/O; what its dialog raises is reported likewise. *)
Theorem file_operations_report_errors (env : Env) (a : App) (p : string) (e : exn) :
  fst (_open_file env a) = Return tt /\
  fst (save_file env a) = Return tt /\
  fst (new_file env a) = Return tt /\
  (dialog_answer env = Return p -> fst (_save_as_file env a) = Return tt) /\
  (dialog_answer env = Return p -> truthy p = true ->
   fst (open_block env p a) = Raise e ->
   status_message (status_bar (snd (_open_file env a))) =
     Some ("Error opening file: " ++ exn_str e, 5000)) /\
  (dialog_answer env = Return p -> truthy p = true ->
   fst (save_as_block env p a) = Raise e ->
   status_message (status_bar (snd (_save_as_file env a))) =
     Some ("Error saving file: " ++ exn_str e, 5000)) /\
  (save_target env a = Return p -> truthy p = true ->
   fst (save_block env p (toPlainText (text_editor a)) a) = Raise e ->
   status_message (status_bar (snd (save_file env a))) =
     Some ("Error saving file: " ++ exn_str e, 5000)) /\
  (io_log (snd (new_file env a)) = io_log a /\ fs (snd (new_file env a)) = fs a) /\
  (dialog_answer env = Raise e ->
   status_message (status_bar (snd (new_file env a))) =
     Some ("Error creating new file: " ++ exn_str e, 5000)).
Proof.
  split; [apply open_file_returns |].
  split; [apply save_file_returns |].
  split; [apply new_file_returns |].
  split; [apply save_as_file_returns |].
  split; [| split; [| split; [| split]]].
  - intros Hd Ht Hb. unfold _open_file, try_except, getOpenFileName, mbind, M_bind.
    rewrite Hd, Ht. destruct (open_block env p a) as [[u | e0] a1]; cbn in Hb; [discriminate |].
    injection Hb as ->. reflexivity.
  - intros Hd Ht Hb. unfold _save_as_file, try_except, getSaveFileName, mbind, M_bind.
    rewrite Hd, Ht. destruct (save_as_block env p a) as [[u | e0] a1]; cbn in Hb; [discriminate |].
    injection Hb as ->. reflexivity.
  - intros Hs Ht Hb. unfold save_target in Hs.
    unfold save_file, try_except, gets, mbind, M_bind.
    destruct (truthy (current_file_path (text_editor a))) eqn:Hc.
    + injection Hs as ->.
      destruct (save_block env p _ a) as [[u | e0] a1]; cbn in Hb; [discriminate |].
      injection Hb as ->. reflexivity.
    + unfold _save_as_file, try_except, getSaveFileName, mbind, M_bind.
      rewrite Hs, Ht, save_as_block_save_block.
      destruct (save_block env p _ a) as [[u | e0] a1]; cbn in Hb; [discriminate |].
      injection Hb as ->. reflexivity.
  - unfold_slots. sim. break_match; simplify_eq; sim; use_document_set; sim;
      intuition congruence.
  - intros Hd. unfold_slots. rewrite Hd. reflexivity.
Qed.

Lemma file_operations_report_errors_witness :
  status_message (status_bar (snd (_open_file (denied "a.txt") app_saved))) =
    Some ("Error opening file: [Errno 13] Permission denied: 'a.txt'", 5000) /\
  status_message (status_bar (snd (_save_as_file (denied "b.txt") app_saved))) =
    Some ("Error saving file: [Errno 13] Permission denied: 'b.txt'", 5000) /\
  status_message (status_bar (snd (save_file denied_current app_saved))) =
    Some ("Error saving file: [Errno 13] Permission denied: 'a.txt'", 5000) /\
  fst (_save_as_file (denied "b.txt") app_saved) = Return tt /\
  status_message (status_bar (snd (new_file dialog_broken app_saved))) =
    Some ("Error creating new file: dialog failed", 5000).
Proof.
  destruct (file_operations_report_errors (denied "a.txt") app_saved "a.txt"
              (PermissionError "a.txt")) as (_ & _ & _ & _ & Ho & _ & _).
  destruct (file_operations_report_errors (denied "b.txt") app_saved "b.txt"
              (PermissionError "b.txt")) as (_ & _ & _ & Hr & _ & Hsa & _).
  destruct (file_operations_report_errors denied_current app_saved "a.txt"
              (PermissionError "a.txt")) as (_ & _ & _ & _ & _ & _ & Hs & _).
  destruct (file_operations_report_errors dialog_broken app_saved ""
              (mk_exn "RuntimeError" "dialog failed")) as (_ & _ & _ & _ & _ & _ & _ & _ & Hn).
  split; [exact (Ho eq_refl eq_refl eq_refl) |].
  split; [exact (Hsa eq_refl eq_refl eq_refl) |].
  split; [exact (Hs eq_refl eq_refl eq_refl) |].
  split; [exact (Hr eq_refl) | exact (Hn eq_refl)].
Defined.

(** ** Saving and opening again *)

Lemma user_edits_keep_files ts a : fs (run (map UserEdit ts) a) = fs a.
Proof.
  revert a. induction ts as [| t ts IH]; intros a; [reflexivity |].
  cbn [map run fold_left]. change (fold_left _ ?l ?x) with (run l x).
  rewrite IH. cbn [step]. apply document_set_world.
Qed.

Lemma open_file_reads env a p t :
  no_faults env -> dialog_answer env = Return p -> truthy p = true ->
  fs a !! p = Some t ->
  let a' := snd (_open_file env a) in
  toPlainText (text_editor a') = t /\
  current_file_path (text_editor a') = p /\
  status_message (status_bar a') = Some ("Opened: " ++ p, 5000).
Proof.
  intros (Ho & Hr & Hc) Hd Ht Hf. cbn zeta.
  unfold_slots. rewrite Hd, Ho, Hr, Hc. sim. rewrite Ht, Hf. sim.
  use_document_set. sim. intuition.
Qed.

Lemma save_as_file_writes env a p :
  no_faults env -> dialog_answer env = Return p -> truthy p = true ->
  let a' := snd (_save_as_file env a) in
  fst (_save_as_file env a) = Return tt /\
  text_editor a' = te_set_path p (text_editor a) /\
  status_bar a' = status_bar a /\
  fs a' !! p = Some (toPlainText (text_editor a)).
Proof.
  intros (Ho & Hr & Hc) Hd Ht. cbn zeta.
  unfold_slots. rewrite Hd, Ho, Hr, Hc. sim. rewrite Ht. sim.
  repeat split. now rewrite lookup_insert_eq.
Qed.

Lemma save_file_writes env a p :
  no_faults env -> save_target env a = Return p -> truthy p = true ->
  let a' := snd (save_file env a) in
  fst (save_file env a) = Return tt /\
  toPlainText (text_editor a') = toPlainText (text_editor a) /\
  status_bar a' = status_bar a /\
  fs a' !! p = Some (toPlainText (text_editor a)).
Proof.
  intros Hn Hs Ht. cbn zeta. unfold save_target in Hs.
  unfold save_file, try_except, gets, mbind, M_bind.
  destruct (truthy (current_file_path (text_editor a))) eqn:Hp.
  - injection Hs as ->. destruct Hn as (Ho & Hr & Hc).
    unfold_slots. rewrite Ho, Hr, Hc. sim.
    repeat split. now rewrite lookup_insert_eq.
  - destruct (save_as_file_writes env a p Hn Hs Ht) as (Hret & Hed & Hsb & Hfs).
    destruct (_save_as_file env a) as [r a1]. cbn in *. subst r.
    cbn. rewrite Hed. auto.
Qed.

(** C1.  Take an editor text [t] and a save that goes through, by
    [save_file] or by [_save_as_file], to the path [p].  The save leaves
    the editor's text alone and the file at [p] then holds exactly [t];
    and whatever the user types afterwards, opening [p] sets the editor's
    text to exactly [t] again. *)
Theorem save_then_open_restores_text (a : App) (env1 env2 : Env) (p : string)
    (edits : list string) :
  truthy p = true -> no_faults env1 -> no_faults env2 ->
  dialog_answer env2 = Return p ->
  let t := toPlainText (text_editor a) in
  let reopened a1 := snd (_open_file env2 (run (map UserEdit edits) a1)) in
  (save_target env1 a = Return p ->
   let a1 := snd (save_file env1 a) in
   toPlainText (text_editor a1) = t /\ fs a1 !! p = Some t /\
   toPlainText (text_editor (reopened a1)) = t) /\
  (dialog_answer env1 = Return p ->
   let a1 := snd (_save_as_file env1 a) in
   toPlainText (text_editor a1) = t /\ fs a1 !! p = Some t /\
   toPlainText (text_editor (reopened a1)) = t).
Proof.
  intros Ht Hn1 Hn2 Hd2. cbn zeta. split.
  - intros Hs. destruct (save_file_writes env1 a p Hn1 Hs Ht) as (_ & Htxt & _ & Hfs).
    split; [exact Htxt | split; [exact Hfs |]].
    apply (open_file_reads env2 _ p); auto.
    now rewrite user_edits_keep_files.
  - intros Hd. destruct (save_as_file_writes env1 a p Hn1 Hd Ht) as (_ & Hed & _ & Hfs).
    split; [now rewrite Hed | split; [exact Hfs |]].
    apply (open_file_reads env2 _ p); auto.
    now rewrite user_edits_keep_files.
Qed.

Lemma save_then_open_restores_text_witness :
  toPlainText (text_editor app_hello) = "hello" /\
  fs (snd (save_file (chose "a.txt") app_hello)) !! "a.txt" = Some "hello" /\
  toPlainText (text_editor
    (snd (_open_file (chose "a.txt")
            (run (map UserEdit ["bye"]) (snd (save_file (chose "a.txt") app_hello))))))
  = "hello" /\
  toPlainText (text_editor
    (snd (_open_file (chose "a.txt")
            (run (map UserEdit ["bye"]) (snd (_save_as_file (chose "a.txt") app_hello))))))
  = "hello".
Proof.
  assert (N : no_faults (chose "a.txt")) by (repeat split).
  destruct (save_then_open_restores_text app_hello (chose "a.txt") (chose "a.txt") "a.txt"
              ["bye"] eq_refl N N eq_refl) as [Hsave Hsave_as].
  destruct (Hsave eq_refl) as (_ & Hfs & Hopen).
  destruct (Hsave_as eq_refl) as (_ & _ & Hopen').
  split; [reflexivity | split; [exact Hfs | split; [exact Hopen | exact Hopen']]].
Defined.

(** ** The status bar's file label *)



Lemma new_file_label env a p :
  dialog_answer env = Return p -> truthy p = true ->
  let a' := snd (new_file env a) in
  current_file_path (text_editor a') = p /\
  toPlainText (text_editor a') = "" /\
  textChanged_emitted (qt (text_editor a')) = S (textChanged_emitted (qt (text_editor a))) /\
  file_label (status_bar a') = str_or (current_file_path (text_editor a)) "No file open".
Proof.
  intros Hd Ht. cbn zeta. unfold_slots. rewrite Hd. sim. rewrite Ht. sim.
  use_document_set. sim. intuition.
Qed.




(** ** The paint routine *)

Lemma paintEvent_any_fuel fuel ed doc rect :
  show_line_numbers ed = true ->
  paintEvent_fuel fuel ed doc rect =
  Some ([FillRect rect lightGray], Raise (AttributeError "firstVisibleBlock")).
Proof. intros H. unfold paintEvent_fuel. rewrite H. reflexivity. Qed.

(** C4: the code breaks the claim.  The routine is written to paint the
    line numbers, but it asks the editor, a [QTextEdit], for
    [firstVisibleBlock], which only [QPlainTextEdit] has.  With the line
    numbers shown, whatever the document's blocks and the rectangle, it
    fills the rectangle and then raises [AttributeError]: no line number
    is drawn, for no block. *)
Theorem paintEvent_draws_no_number (ed : TextEditor) (doc : list Block) (rect : QRect) :
  show_line_numbers ed = true ->
  paintEvent ed doc rect =
    Some ([FillRect rect lightGray], Raise (AttributeError "firstVisibleBlock")) /\
  forall ops r, paintEvent ed doc rect = Some (ops, r) -> labels ops = [].
Proof.
  intros H. unfold paintEvent. rewrite (paintEvent_any_fuel _ ed doc rect H).
  split; [reflexivity |]. intros ops r [= <- _]. reflexivity.
Qed.

Lemma paintEvent_draws_no_number_witness :
  show_line_numbers (text_editor app_ten) = true /\
  paintEvent (text_editor app_ten) [mk_block true; mk_block true; mk_block true]
             (mk_rect 0 0 26 48) =
  Some ([FillRect (mk_rect 0 0 26 48) lightGray],
        Raise (mk_exn "AttributeError"
                 "'TextEditor' object has no attribute 'firstVisibleBlock'")).
Proof.
  split; [reflexivity |].
  exact (proj1 (paintEvent_draws_no_number (text_editor app_ten)
                  [mk_block true; mk_block true; mk_block true] (mk_rect 0 0 26 48) eq_refl)).
Defined.

(** C6: the code breaks the claim, by the slip that breaks C4.  The loop
    is never entered: the statements before it raise at
    [firstVisibleBlock], so its entry state is never formed.  Were it
    entered, a pass through its body would not complete either:
    [blockBoundingRect], asked for at the end of the body, is missing on
    the editor too, so a pass raises instead of moving to [block.next()].
    With the line numbers shown [paintEvent] therefore ends by an
    exception, whatever the fuel given to the loop, and not at an invalid
    block or at a top past the rectangle's bottom. *)
Theorem paint_loop_never_entered (ed : TextEditor) (doc : list Block) (rect : QRect)
    (s : paint_state) (painted : list paint_op) (fuel : nat) :
  paint_entry ed doc painted = Raise (AttributeError "firstVisibleBlock") /\
  snd (paint_body ed doc rect s) = Raise (AttributeError "blockBoundingRect") /\
  (paint_cond doc rect s = true ->
   exists ops, paint_while (S fuel) ed doc rect s =
               Some (ops, Raise (AttributeError "blockBoundingRect"))) /\
  (show_line_numbers ed = true ->
   exists ops e, paintEvent_fuel fuel ed doc rect = Some (ops, Raise e)).
Proof.
  split; [reflexivity | split; [reflexivity | split]].
  - intros Hc. cbn [paint_while]. rewrite Hc. cbn. eauto.
  - intros H. rewrite (paintEvent_any_fuel fuel ed doc rect H). eauto.
Qed.

Lemma paint_loop_never_entered_witness :
  let doc := [mk_block true; mk_block true; mk_block true] in
  let rect := mk_rect 0 0 26 48 in
  let s := mk_ps 0 0 0 16 [FillRect rect lightGray] in
  paint_cond doc rect s = true /\
  (exists ops, paint_while 4 (text_editor app_ten) doc rect s =
               Some (ops, Raise (AttributeError "blockBoundingRect"))) /\
  exists ops e, paintEvent_fuel 4 (text_editor app_ten) doc rect = Some (ops, Raise e).
Proof.
  cbn zeta.
  destruct (paint_loop_never_entered (text_editor app_ten)
              [mk_block true; mk_block true; mk_block true] (mk_rect 0 0 26 48)
              (mk_ps 0 0 0 16 [FillRect (mk_rect 0 0 26 48) lightGray]) [] 3)
    as (_ & _ & Hpass & _).
  destruct (paint_loop_never_entered (text_editor app_ten)
              [mk_block true; mk_block true; mk_block true] (mk_rect 0 0 26 48)
              (mk_ps 0 0 0 16 [FillRect (mk_rect 0 0 26 48) lightGray]) [] 4)
    as (_ & _ & _ & Hev).
  split; [reflexivity | split; [exact (Hpass eq_refl) | exact (Hev eq_refl)]].
Defined.

(** * Further properties of the file operations *)

Lemma open_file_keeps_fs env a : fs (snd (_open_file env a)) = fs a.
Proof.
  unfold_slots. sim. break_match; simplify_eq; sim; use_document_set; sim;
    intuition congruence.
Qed.

Lemma new_file_keeps_world env a :
  fs (snd (new_file env a)) = fs a /\ io_log (snd (new_file env a)) = io_log a.
Proof.
  unfold_slots. sim. break_match; simplify_eq; sim; use_document_set; sim;
    intuition congruence.
Qed.

Lemma save_file_editor env a p :
  no_faults env -> save_target env a = Return p -> truthy p = true ->
  let a' := snd (save_file env a) in
  status_bar a' = status_bar a /\
  text_editor a' = te_set_path p (text_editor a).
Proof.
  intros Hn Hs Ht. cbn zeta.
  destruct (save_file_writes env a p Hn Hs Ht) as (_ & _ & Hsb & _).
  split; [exact Hsb |].
  unfold save_target in Hs. destruct Hn as (Ho & Hr & Hc).
  unfold_slots. rewrite Ho, Hr, Hc. sim.
  destruct (truthy (current_file_path (text_editor a))) eqn:Hp; sim.
  - injection Hs as <-. now destruct (text_editor a).
  - rewrite Hs. sim. rewrite Ht. reflexivity.
Qed.

(** X1.  A cancelled dialog (empty path) makes [_open_file], [_save_as_file]
    and [new_file] return with the application exactly as it was; so does
    [save_file] when there is no current file. *)
Theorem cancelled_dialog_changes_nothing (env : Env) (a : App) :
  dialog_answer env = Return "" ->
  _open_file env a = (Return tt, a) /\
  _save_as_file env a = (Return tt, a) /\
  new_file env a = (Return tt, a) /\
  (current_file_path (text_editor a) = "" -> save_file env a = (Return tt, a)).
Proof.
  intros Hd. repeat split; try intros Hp; unfold_slots; rewrite ?Hp, Hd; reflexivity.
Qed.

Lemma cancelled_dialog_changes_nothing_witness :
  _open_file (chose "") app_saved = (Return tt, app_saved) /\
  new_file (chose "") app_saved = (Return tt, app_saved) /\
  save_file (chose "") app_hello = (Return tt, app_hello).
Proof.
  destruct (cancelled_dialog_changes_nothing (chose "") app_saved eq_refl)
    as (Ho & _ & Hn & _).
  destruct (cancelled_dialog_changes_nothing (chose "") app_hello eq_refl)
    as (_ & _ & _ & Hs).
  split; [exact Ho | split; [exact Hn | exact (Hs eq_refl)]].
Defined.

(** X2.  With a current file, [save_file] never looks at the dialog: whatever
    the dialog would answer, it opens the current file, once, for writing,
    and the editor is left as it was. *)
Theorem save_file_uses_current_path (env env' : Env) (a : App) :
  truthy (current_file_path (text_editor a)) = true ->
  open_fault env = open_fault env' -> rw_fault env = rw_fault env' ->
  close_fault env = close_fault env' ->
  save_file env a = save_file env' a /\
  io_log (snd (save_file env a)) =
    (io_log a ++ [mk_io (current_file_path (text_editor a)) ModeW "utf-8"])%list /\
  text_editor (snd (save_file env a)) = text_editor a.
Proof.
  intros Hp Ho Hr Hc. unfold_slots. rewrite Hp, <- Ho, <- Hr, <- Hc. sim.
  break_match; simplify_eq; sim; auto.
Qed.

Lemma save_file_uses_current_path_witness :
  save_file (chose "other.txt") app_saved = save_file dialog_broken app_saved /\
  fs (snd (save_file dialog_broken app_saved)) !! "a.txt" = Some "x" /\
  fs (snd (save_file dialog_broken app_saved)) !! "other.txt" = None.
Proof.
  destruct (save_file_uses_current_path (chose "other.txt") dialog_broken app_saved
              eq_refl eq_refl eq_refl eq_refl) as (H & _ & _).
  split; [exact H | split; reflexivity].
Defined.

(** X3.  After a Save As that went through for [p], the file is the current
    one: once the user has edited the text to [t], a [save_file] that goes
    through writes [t] to [p], whatever the dialog would answer. *)
Theorem save_as_then_save (a : App) (env1 env2 : Env) (p t : string) :
  no_faults env1 -> dialog_answer env1 = Return p -> truthy p = true ->
  no_faults env2 ->
  let a1 := snd (_save_as_file env1 a) in
  let a3 := snd (save_file env2 (document_set t a1)) in
  fs a3 !! p = Some t /\ current_file_path (text_editor a3) = p /\
  toPlainText (text_editor a3) = t.
Proof.
  intros Hn1 Hd Ht Hn2. cbn zeta.
  destruct (save_as_file_writes env1 a p Hn1 Hd Ht) as (_ & Hed & _ & _).
  set (a1 := snd (_save_as_file env1 a)) in *.
  destruct (document_set_editor t a1) as (Htxt & Hpath & _). cbn zeta in Htxt, Hpath.
  assert (Hcur : current_file_path (text_editor (document_set t a1)) = p)
    by (rewrite Hpath, Hed; reflexivity).
  assert (Htgt : save_target env2 (document_set t a1) = Return p)
    by (unfold save_target; rewrite Hcur, Ht; reflexivity).
  destruct (save_file_writes env2 _ p Hn2 Htgt Ht) as (_ & Htxt' & _ & Hfs).
  rewrite Htxt in Hfs, Htxt'.
  split; [exact Hfs | split; [| exact Htxt']].
  destruct (save_file_editor env2 _ p Hn2 Htgt Ht) as [_ ->]. reflexivity.
Qed.

Lemma save_as_then_save_witness :
  fs (snd (save_file dialog_broken
             (document_set "second" (snd (_save_as_file (chose "a.txt") app_hello)))))
    !! "a.txt" = Some "second".
Proof.
  assert (N1 : no_faults (chose "a.txt")) by (repeat split).
  assert (N2 : no_faults dialog_broken) by (repeat split).
  exact (proj1 (save_as_then_save app_hello (chose "a.txt") dialog_broken "a.txt" "second"
                  N1 eq_refl eq_refl N2)).
Defined.

(** X4.  Which files an operation can touch.  [_open_file] and [new_file]
    leave every file as it is, whatever happens; [_save_as_file] leaves
    every file but the one the dialog named, and [save_file] every file
    but its target. *)
Theorem file_operations_touch_only_target (env : Env) (a : App) (q : string) :
  fs (snd (_open_file env a)) = fs a /\
  fs (snd (new_file env a)) = fs a /\
  (dialog_answer env <> Return q ->
   fs (snd (_save_as_file env a)) !! q = fs a !! q) /\
  (save_target env a <> Return q ->
   fs (snd (save_file env a)) !! q = fs a !! q).
Proof.
  split; [| split; [| split]].
  - apply open_file_keeps_fs.
  - apply new_file_keeps_world.
  - intros Hq. unfold_slots. sim. break_match; simplify_eq; sim;
      rewrite ?lookup_insert_ne by congruence; reflexivity.
  - intros Hq. unfold save_target in Hq. unfold_slots. sim.
    break_match; simplify_eq; sim;
      rewrite ?lookup_insert_ne by congruence; reflexivity.
Qed.

Lemma file_operations_touch_only_target_witness :
  fs (snd (_save_as_file (chose "b.txt") app_saved)) !! "a.txt" = Some "x" /\
  fs (snd (save_file (chose "b.txt") app_saved)) !! "b.txt" = None.
Proof.
  destruct (file_operations_touch_only_target (chose "b.txt") app_saved "a.txt")
    as (_ & _ & Hsa & _).
  destruct (file_operations_touch_only_target (chose "b.txt") app_saved "b.txt")
    as (_ & _ & _ & Hs).
  split.
  - rewrite Hsa; [reflexivity | discriminate].
  - rewrite Hs; [reflexivity | discriminate].
Defined.

(** X5.  A Save As whose [with open(...)] block raises adopts nothing: the
    current file path, the text and the file label stay as they were.  The
    path is taken over only after the block has ended without error. *)
Theorem failed_save_as_keeps_path (env : Env) (a : App) (p : string) (e : exn) :
  dialog_answer env = Return p -> truthy p = true ->
  fst (save_as_block env p a) = Raise e ->
  let a' := snd (_save_as_file env a) in
  text_editor a' = text_editor a /\
  file_label (status_bar a') = file_label (status_bar a).
Proof.
  intros Hd Ht Hb. cbn zeta. revert Hb. unfold_slots. rewrite Hd. sim. rewrite Ht. sim.
  break_match; simplify_eq; sim; intros; simplify_eq; auto.
Qed.

Lemma failed_save_as_keeps_path_witness :
  text_editor (snd (_save_as_file (denied "b.txt") app_saved)) = text_editor app_saved /\
  current_file_path (text_editor (snd (_save_as_file (denied "b.txt") app_saved))) = "a.txt".
Proof.
  destruct (failed_save_as_keeps_path (denied "b.txt") app_saved "b.txt"
              (PermissionError "b.txt") eq_refl eq_refl eq_refl) as [H _].
  split; [exact H | rewrite H; reflexivity].
Defined.

(** X6.  An open that goes through for [p] makes [p] the current file and
    says "Opened: p"; but the file label was recomputed when the text was
    set, before the path was assigned, so it shows the previous file, and
    shows [p] only once the text changes again. *)
Theorem open_file_label_lags (env : Env) (a : App) (p t t' : string) :
  no_faults env -> dialog_answer env = Return p -> truthy p = true ->
  fs a !! p = Some t ->
  let a' := snd (_open_file env a) in
  current_file_path (text_editor a') = p /\
  status_message (status_bar a') = Some ("Opened: " ++ p, 5000) /\
  file_label (status_bar a') = str_or (current_file_path (text_editor a)) "No file open" /\
  file_label (status_bar (document_set t' a')) = p.
Proof.
  intros Hn Hd Ht Hf. cbn zeta.
  destruct (open_file_reads env a p t Hn Hd Ht Hf) as (_ & Hp & Hm).
  split; [exact Hp | split; [exact Hm | split]].
  - destruct Hn as (Ho & Hr & Hc).
    unfold_slots. rewrite Hd, Ho, Hr, Hc. sim. rewrite Ht, Hf. sim.
    use_document_set. sim. intuition.
  - rewrite document_set_label, Hp. unfold str_or. now rewrite Ht.
Qed.

Lemma open_file_label_lags_witness :
  file_label (status_bar (snd (_open_file (chose "a.txt") app_saved))) = "a.txt" /\
  file_label (status_bar (snd (_open_file (chose "a.txt")
                                 (snd (new_file (chose "b.txt") app_saved))))) = "b.txt" /\
  current_file_path (text_editor (snd (_open_file (chose "a.txt")
                                 (snd (new_file (chose "b.txt") app_saved))))) = "a.txt".
Proof.
  assert (N : no_faults (chose "a.txt")) by (repeat split).
  destruct (open_file_label_lags (chose "a.txt") app_saved "a.txt" "x" "y"
              N eq_refl eq_refl eq_refl) as (_ & _ & H1 & _).
  destruct (open_file_label_lags (chose "a.txt") (snd (new_file (chose "b.txt") app_saved))
              "a.txt" "x" "y" N eq_refl eq_refl eq_refl) as (H2 & _ & H3 & _).
  split; [exact H1 | split; [exact H3 | exact H2]].
Defined.

(** X7.  When [_open_file] has read the file and only closing it fails, the
    text has already been set ([textChanged] was emitted and the label
    recomputed), while the current file path is still the old one; the
    error is reported and goes no further. *)
Theorem open_file_close_failure (env : Env) (a : App) (p t : string) (e : exn) :
  dialog_answer env = Return p -> truthy p = true ->
  open_fault env = None -> rw_fault env = None -> close_fault env = Some e ->
  fs a !! p = Some t ->
  let a' := snd (_open_file env a) in
  fst (_open_file env a) = Return tt /\
  textChanged_emitted (qt (text_editor a')) = S (textChanged_emitted (qt (text_editor a))) /\
  current_file_path (text_editor a') = current_file_path (text_editor a) /\
  status_message (status_bar a') = Some ("Error opening file: " ++ exn_str e, 5000).
Proof.
  intros Hd Ht Ho Hr Hc Hf. cbn zeta.
  unfold_slots. rewrite Hd, Ho, Hr, Hc. sim. rewrite Ht, Hf. sim.
  use_document_set. sim. intuition.
Qed.

Lemma open_file_close_failure_witness :
  let env := mk_env (Return "a.txt") None None (Some (mk_exn "OSError" "I/O error")) in
  let a := snd (new_file (chose "b.txt") app_saved) in
  textChanged_emitted (qt (text_editor (snd (_open_file env a)))) =
    S (textChanged_emitted (qt (text_editor a))) /\
  current_file_path (text_editor (snd (_open_file env a))) = "b.txt".
Proof.
  cbn zeta.
  destruct (open_file_close_failure
              (mk_env (Return "a.txt") None None (Some (mk_exn "OSError" "I/O error")))
              (snd (new_file (chose "b.txt") app_saved)) "a.txt" "x"
              (mk_exn "OSError" "I/O error") eq_refl eq_refl eq_refl eq_refl eq_refl eq_refl)
    as (_ & He & Hp & _).
  split; [exact He | exact Hp].
Defined.

(** X8.  A save that goes through says nothing: the status bar, message and
    label, is as before, and of the editor only the current file path can
    have changed, to the saved path. *)
Theorem successful_save_is_silent (env : Env) (a : App) (p : string) :
  no_faults env -> save_target env a = Return p -> truthy p = true ->
  let a' := snd (save_file env a) in
  status_bar a' = status_bar a /\
  text_editor a' = te_set_path p (text_editor a).
Proof. apply save_file_editor. Qed.

Lemma successful_save_is_silent_witness :
  status_bar (snd (save_file (chose "a.txt") app_hello)) = status_bar app_hello /\
  status_message (status_bar (snd (save_file (chose "a.txt") app_hello))) = None.
Proof.
  assert (N : no_faults (chose "a.txt")) by (repeat split).
  destruct (successful_save_is_silent (chose "a.txt") app_hello "a.txt" N eq_refl eq_refl)
    as [H _].
  split; [exact H | rewrite H; reflexivity].
Defined.

(** X9.  The dialog of [_save_as_file] is outside its [try]: when the dialog
    itself raises, the exception leaves [_save_as_file], the application
    untouched.  Reached through [save_file] (no current file), the same
    exception is caught there and reported. *)
Theorem dialog_failure_in_save_as (env : Env) (a : App) (e : exn) :
  dialog_answer env = Raise e ->
  _save_as_file env a = (Raise e, a) /\
  (current_file_path (text_editor a) = "" ->
   save_file env a =
     (Return tt,
      app_set_status (sb_showMessage ("Error saving file: " ++ exn_str e) 5000
                        (status_bar a)) a)).
Proof.
  intros Hd. split.
  - unfold_slots. rewrite Hd. reflexivity.
  - intros Hp. unfold_slots. rewrite Hp, Hd. reflexivity.
Qed.

Lemma dialog_failure_in_save_as_witness :
  fst (_save_as_file dialog_broken app_hello) = Raise (mk_exn "RuntimeError" "dialog failed") /\
  status_message (status_bar (snd (save_file dialog_broken app_hello))) =
    Some ("Error saving file: dialog failed", 5000).
Proof.
  destruct (dialog_failure_in_save_as dialog_broken app_hello
              (mk_exn "RuntimeError" "dialog failed") eq_refl) as [H1 H2].
  split; [rewrite H1; reflexivity | rewrite (H2 eq_refl); reflexivity].
Defined.

(** X10.  Saving twice is saving once: after a save that went through, a second
    one that goes through leaves the file system as the first left it,
    whatever its dialog would answer. *)
Theorem save_twice_is_save_once (env1 env2 : Env) (a : App) (p : string) :
  no_faults env1 -> no_faults env2 ->
  save_target env1 a = Return p -> truthy p = true ->
  let a1 := snd (save_file env1 a) in
  fs (snd (save_file env2 a1)) = fs a1.
Proof.
  intros Hn1 Hn2 Hs Ht. cbn zeta.
  destruct (save_file_editor env1 a p Hn1 Hs Ht) as [_ Hed].
  destruct (save_file_writes env1 a p Hn1 Hs Ht) as (_ & _ & _ & Hfs).
  set (a1 := snd (save_file env1 a)) in *.
  assert (Htgt : save_target env2 a1 = Return p)
    by (unfold save_target; rewrite Hed; cbn; now rewrite Ht).
  assert (Htxt : toPlainText (text_editor a1) = toPlainText (text_editor a))
    by (rewrite Hed; reflexivity).
  destruct Hn2 as (Ho & Hr & Hc). unfold save_target in Htgt.
  unfold_slots. rewrite Ho, Hr, Hc. sim.
  destruct (truthy (current_file_path (text_editor a1))) eqn:Hp; sim.
  - injection Htgt as ->. rewrite insert_insert_eq. apply insert_id.
    now rewrite Htxt.
  - rewrite Hed in Hp. cbn in Hp. congruence.
Qed.

Lemma save_twice_is_save_once_witness :
  fs (snd (save_file dialog_broken (snd (save_file (chose "a.txt") app_hello)))) =
  fs (snd (save_file (chose "a.txt") app_hello)).
Proof.
  assert (N1 : no_faults (chose "a.txt")) by (repeat split).
  assert (N2 : no_faults dialog_broken) by (repeat split).
  exact (save_twice_is_save_once (chose "a.txt") dialog_broken app_hello "a.txt"
           N1 N2 eq_refl eq_refl).
Defined.

(** X12.  [new_file] creates no file: it only empties the editor and names the
    path.  The file comes into being, empty, with the next save that goes
    through, and no dialog is asked then. *)
Theorem new_then_save_creates_empty_file (env1 env2 : Env) (a : App) (p : string) :
  dialog_answer env1 = Return p -> truthy p = true -> no_faults env2 ->
  let a1 := snd (new_file env1 a) in
  fs a1 = fs a /\ io_log a1 = io_log a /\
  fs (snd (save_file env2 a1)) = <[p := ""]> (fs a).
Proof.
  intros Hd Ht Hn. cbn zeta.
  destruct (new_file_label env1 a p Hd Ht) as (Hp & Htxt & _).
  destruct (new_file_keeps_world env1 a) as [Hfs Hlog].
  set (a1 := snd (new_file env1 a)) in *.
  split; [exact Hfs | split; [exact Hlog |]].
  destruct Hn as (Ho & Hr & Hc).
  unfold_slots. rewrite Ho, Hr, Hc, Hp. sim. rewrite Ht. sim.
  rewrite Hfs, insert_insert_eq. f_equal. exact Htxt.
Qed.

Lemma new_then_save_creates_empty_file_witness :
  fs (snd (new_file (chose "b.txt") app_saved)) !! "b.txt" = None /\
  fs (snd (save_file dialog_broken (snd (new_file (chose "b.txt") app_saved)))) !! "b.txt"
  = Some "".
Proof.
  assert (N : no_faults dialog_broken) by (repeat split).
  destruct (new_then_save_creates_empty_file (chose "b.txt") dialog_broken app_saved "b.txt"
              eq_refl eq_refl N) as (H1 & _ & H2).
  split; [rewrite H1; reflexivity | rewrite H2; reflexivity].
Defined.

(** X13.  Every operation opens at most one file, and none when its dialog is
    cancelled: [_open_file] only ever opens the path the dialog named, for
    reading; [_save_as_file] that path, for writing; [save_file] its
    target, for writing; [new_file] opens nothing. *)
Theorem operations_open_one_file (env : Env) (a : App) :
  (io_log (snd (_open_file env a)) = io_log a \/
   exists p, dialog_answer env = Return p /\ truthy p = true /\
     io_log (snd (_open_file env a)) = (io_log a ++ [mk_io p ModeR "utf-8"])%list) /\
  (io_log (snd (_save_as_file env a)) = io_log a \/
   exists p, dialog_answer env = Return p /\ truthy p = true /\
     io_log (snd (_save_as_file env a)) = (io_log a ++ [mk_io p ModeW "utf-8"])%list) /\
  (io_log (snd (save_file env a)) = io_log a \/
   exists p, save_target env a = Return p /\ truthy p = true /\
     io_log (snd (save_file env a)) = (io_log a ++ [mk_io p ModeW "utf-8"])%list) /\
  io_log (snd (new_file env a)) = io_log a.
Proof.
  split; [| split; [| split]].
  - unfold_slots. sim. break_match; simplify_eq; sim; use_document_set; sim;
      repeat match goal with H : _ /\ _ |- _ => destruct H end;
      first [ left; congruence | right; eexists; repeat split; eauto; congruence ].
  - unfold_slots. sim. break_match; simplify_eq; sim;
      first [ left; reflexivity | right; eexists; repeat split; eauto ].
  - unfold save_target. unfold_slots. sim. break_match; simplify_eq; sim;
      first [ left; reflexivity | right; eexists; repeat split; eauto ].
  - apply new_file_keeps_world.
Qed.

(** * The status bar's messages *)

Lemma slot_program_message h env a :
  program_message (status_message (status_bar a)) ->
  program_message (status_message (status_bar (snd (run_slot h env a)))).
Proof.
  intros Hm.
  destruct h; unfold_slots; sim; break_match; simplify_eq; sim;
    use_document_set; sim;
    repeat match goal with H : _ /\ _ |- _ => destruct H end;
    repeat match goal with H : status_message _ = _ |- _ => rewrite H end;
    try assumption;
    try (split; [reflexivity
                | first [left; eexists; reflexivity | right; eexists; reflexivity]]).
Qed.

(** X14.  Whatever has happened, the status bar's message, if there is one, is
    an "Opened: ..." note or an "Error ..." report, shown for 5000 ms: the
    program announces nothing else, in particular no save. *)
Theorem status_messages_of_the_program (a : App) :
  reachable a -> program_message (status_message (status_bar a)).
Proof.
  induction 1 as [q0 g0 fs0 | act a Hr IH].
  - exact I.
  - destruct act as [h env | t | ]; cbn [step].
    + now apply slot_program_message.
    + now rewrite document_set_message.
    + exact IH.
Qed.

Lemma status_messages_of_the_program_witness :
  status_message (status_bar (step (Trigger Slot_open_file (chose "a.txt")) app_saved)) =
    Some ("Opened: a.txt", 5000) /\
  program_message
    (status_message (status_bar (step (Trigger Slot_open_file (chose "a.txt")) app_saved))).
Proof.
  split; [reflexivity |].
  apply status_messages_of_the_program.
  do 3 apply reach_step. apply reach_init.
Defined.

(** * The gutter's width *)

(** ** Decimal strings *)

Lemma length_string_of_uint d :
  String.length (NilEmpty.string_of_uint d) = Decimal.nb_digits d.
Proof. induction d; cbn; congruence. Qed.

Lemma of_uint_acc_bounds l :
  forall acc,
    Z.pos acc * 10 ^ Z.of_nat (Decimal.nb_digits l) <= Z.pos (Pos.of_uint_acc l acc)
    < (Z.pos acc + 1) * 10 ^ Z.of_nat (Decimal.nb_digits l).
Proof.
  induction l as [| l IH | l IH | l IH | l IH | l IH | l IH | l IH | l IH | l IH | l IH];
    intros acc; cbn [Pos.of_uint_acc Decimal.nb_digits];
    [ cbn; lia | .. ];
    rewrite Nat2Z.inj_succ, Z.pow_succ_r by lia;
    match goal with
    | |- context [Pos.of_uint_acc l ?acc'] => specialize (IH acc')
    end;
    assert (0 < 10 ^ Z.of_nat (Decimal.nb_digits l)) by (apply Z.pow_pos_nonneg; lia);
    nia.
Qed.

Lemma to_uint_leading p :
  exists l, Decimal.nb_digits (Pos.to_uint p) = S (Decimal.nb_digits l) /\
    10 ^ Z.of_nat (Decimal.nb_digits l) <= Z.pos p < 10 * 10 ^ Z.of_nat (Decimal.nb_digits l).
Proof.
  pose proof (DecimalPos.Unsigned.of_to p) as Hof.
  pose proof (DecimalPos.Unsigned.to_of (Pos.to_uint p)) as Hto.
  rewrite Hof in Hto. cbn [N.to_uint] in Hto.
  pose proof (DecimalPos.Unsigned.to_uint_nonzero p) as Hnz.
  destruct (Pos.to_uint p) as [| l | l | l | l | l | l | l | l | l | l] eqn:E;
    [ cbn in Hof; discriminate
    |
    | cbn [Pos.of_uint] in Hof; injection Hof as Hof;
      match type of Hof with
      | Pos.of_uint_acc ?l ?k = _ =>
          pose proof (of_uint_acc_bounds l k) as Hb;
          rewrite Hof in Hb;
          assert (0 < 10 ^ Z.of_nat (Decimal.nb_digits l)) by (apply Z.pow_pos_nonneg; lia);
          exists l; split; [reflexivity | nia]
      end .. ].
  exfalso. rewrite unorm_D0 in Hto.
  destruct l as [| l' | l' | l' | l' | l' | l' | l' | l' | l' | l'];
    [ now apply Hnz | .. ];
    match goal with
    | H : _ = Decimal.unorm ?x |- _ =>
        assert (Hle : (Decimal.nb_digits (Decimal.unorm x) <= Decimal.nb_digits x)%nat)
          by (apply nb_digits_unorm; discriminate);
        rewrite <- H in Hle; cbn in Hle; lia
    end.
Qed.

Lemma str_int_length z :
  0 < z ->
  let k := Z.of_nat (String.length (str_int z)) in
  1 <= k /\ 10 ^ (k - 1) <= z < 10 ^ k.
Proof.
  intros Hz. destruct z as [| p | p]; try lia.
  unfold str_int. cbn [Z.to_int NilZero.string_of_int].
  destruct (to_uint_leading p) as (l & Hn & Hb).
  assert (Hs : NilZero.string_of_uint (Pos.to_uint p) = NilEmpty.string_of_uint (Pos.to_uint p)).
  { unfold NilZero.string_of_uint. destruct (Pos.to_uint p); try reflexivity. discriminate. }
  rewrite Hs, length_string_of_uint, Hn. cbn zeta.
  rewrite Nat2Z.inj_succ.
  replace (Z.succ (Z.of_nat (Decimal.nb_digits l)) - 1) with (Z.of_nat (Decimal.nb_digits l)) by lia.
  rewrite Z.pow_succ_r by lia. lia.
Qed.

Lemma str_int_length_unique z k :
  0 < z -> 10 ^ (k - 1) <= z < 10 ^ k -> 1 <= k ->
  Z.of_nat (String.length (str_int z)) = k.
Proof.
  intros Hz Hk Hk1. destruct (str_int_length z Hz) as (Hj1 & Hj).
  set (j := Z.of_nat (String.length (str_int z))) in *.
  destruct (Z.lt_trichotomy j k) as [Hlt | [Heq | Hgt]]; [| exact Heq |]; exfalso.
  - assert (10 ^ j <= 10 ^ (k - 1)) by (apply Z.pow_le_mono_r; lia). lia.
  - assert (10 ^ k <= 10 ^ (j - 1)) by (apply Z.pow_le_mono_r; lia). lia.
Qed.

Lemma str_int_length_mono n m :
  0 < n -> n <= m -> (String.length (str_int n) <= String.length (str_int m))%nat.
Proof.
  intros Hn Hnm.
  destruct (str_int_length n Hn) as (Hk1 & Hk).
  destruct (str_int_length m) as (Hj1 & Hj); [lia |].
  cbn zeta in *.
  set (k := Z.of_nat (String.length (str_int n))) in *.
  set (j := Z.of_nat (String.length (str_int m))) in *.
  destruct (Z.le_gt_cases k j) as [Hle | Hgt]; [lia |].
  exfalso. assert (10 ^ j <= 10 ^ (k - 1)) by (apply Z.pow_le_mono_r; lia). lia.
Qed.

Lemma blockCount_pos t : 1 <= blockCount t.
Proof. induction t as [| c t IH]; cbn [blockCount]; [lia |]. destruct (Ascii.eqb c newline); lia. Qed.

(** ** The width and the document *)

Lemma document_set_gutter t a :
  lna_width (line_number_area (text_editor a)) = _calculate_width (text_editor a) ->
  lna_width (line_number_area (text_editor (document_set t a))) =
  _calculate_width (text_editor (document_set t a)).
Proof.
  intros H. unfold document_set. cbn zeta.
  destruct (Z.eqb_spec (blockCount t) (blockCount (toPlainText (text_editor a)))) as [E | E].
  - cbn. rewrite H. unfold _calculate_width, toPlainText. cbn. now rewrite E.
  - reflexivity.
Qed.

Lemma slot_gutter h env a :
  lna_width (line_number_area (text_editor a)) = _calculate_width (text_editor a) ->
  lna_width (line_number_area (text_editor (snd (run_slot h env a)))) =
  _calculate_width (text_editor (snd (run_slot h env a))).
Proof.
  intros H.
  destruct h; unfold_slots; sim; break_match; simplify_eq; sim;
    try change (_calculate_width (te_set_path ?p ?e)) with (_calculate_width e);
    try exact H;
    try (apply document_set_gutter; exact H).
  all: unfold toggle_line_numbers, update_margins;
    destruct (show_line_numbers (text_editor a)); exact H.
Qed.

(** X15.  The gutter never falls behind the document: in every state the
    application reaches, its width is the width [_calculate_width] gives
    for the text the editor holds now. *)
Theorem gutter_width_tracks_document (a : App) :
  reachable a ->
  lna_width (line_number_area (text_editor a)) = _calculate_width (text_editor a).
Proof.
  induction 1 as [q0 g0 fs0 | act a Hr IH].
  - reflexivity.
  - destruct act as [h env | t | ]; cbn [step].
    + now apply slot_gutter.
    + now apply document_set_gutter.
    + exact IH.
Qed.

Lemma gutter_width_tracks_document_witness :
  lna_width (line_number_area (text_editor app_ten)) = 26 /\
  _calculate_width (text_editor app_ten) = 26.
Proof.
  assert (H : lna_width (line_number_area (text_editor app_ten)) =
              _calculate_width (text_editor app_ten))
    by (apply gutter_width_tracks_document; apply reach_step, reach_init).
  split; [reflexivity | rewrite <- H; reflexivity].
Defined.

(** X16.  The width is 10 plus one digit's advance for each decimal digit of
    the number of lines: with [k] digits, that is from [10^(k-1)] up to
    [10^k - 1] lines, it is [10 + k * advance]. *)
Theorem gutter_width_counts_digits (ed : TextEditor) (k : Z) :
  1 <= k ->
  10 ^ (k - 1) <= blockCount (toPlainText ed) < 10 ^ k ->
  _calculate_width ed = 10 + k * advance_9 (qt ed).
Proof.
  intros Hk Hb. unfold _calculate_width.
  pose proof (blockCount_pos (toPlainText ed)) as Hpos.
  rewrite Z.max_r by lia.
  rewrite (str_int_length_unique _ k); [reflexivity | lia | exact Hb | exact Hk].
Qed.

Lemma gutter_width_counts_digits_witness :
  blockCount (toPlainText (text_editor app_ten)) = 10 /\
  _calculate_width (text_editor app_ten) = 10 + 2 * 8.
Proof.
  split; [reflexivity |].
  apply (gutter_width_counts_digits (text_editor app_ten) 2); [lia |].
  split; [discriminate | reflexivity].
Defined.

(** X17.  With a font whose digits have no negative advance, more lines never
    make the gutter narrower, and the gutter is never narrower than the
    padding of 10 plus one digit. *)
Theorem gutter_width_monotone (ed1 ed2 : TextEditor) :
  advance_9 (qt ed1) = advance_9 (qt ed2) -> 0 <= advance_9 (qt ed1) ->
  blockCount (toPlainText ed1) <= blockCount (toPlainText ed2) ->
  10 + advance_9 (qt ed1) <= _calculate_width ed1 <= _calculate_width ed2.
Proof.
  intros Ha Hadv Hb. unfold _calculate_width. rewrite <- Ha.
  pose proof (blockCount_pos (toPlainText ed1)) as H1.
  pose proof (blockCount_pos (toPlainText ed2)) as H2.
  rewrite !Z.max_r by lia.
  assert (Hm := str_int_length_mono (blockCount (toPlainText ed1))
                 (blockCount (toPlainText ed2)) ltac:(lia) Hb).
  destruct (str_int_length (blockCount (toPlainText ed1))) as [Hk _]; [lia |].
  cbn zeta in Hk. nia.
Qed.

Lemma gutter_width_monotone_witness :
  _calculate_width (text_editor app_hello) <= _calculate_width (text_editor app_ten).
Proof.
  apply (gutter_width_monotone (text_editor app_hello) (text_editor app_ten));
    [reflexivity | discriminate | discriminate].
Defined.

(** * The view menu *)

Lemma step_keeps_flag act a :
  (forall env, act <> Trigger Slot_toggle_line_numbers env) ->
  show_line_numbers (text_editor (step act a)) = show_line_numbers (text_editor a).
Proof.
  intros Hne. destruct act as [h env | t | ]; cbn [step].
  - destruct h; try (now destruct (Hne env));
      unfold_slots; sim; break_match; simplify_eq; sim;
      use_document_set; sim; intuition congruence.
  - apply document_set_editor.
  - reflexivity.
Qed.

(** X20.  The check mark of "Show Line Numbers" always tells the truth: in every
    state the window reaches, the action is checked exactly when
    [show_line_numbers] is set; no file operation, edit or scroll changes
    either. *)
Theorem check_mark_follows_flag (g : Gui) :
  gui_reachable g ->
  line_numbers_checked g = show_line_numbers (text_editor (gui_app g)).
Proof.
  induction 1 as [q0 g0 fs0 | act g Hr IH]; [reflexivity |].
  destruct act as [[] env | t | ]; cbn [gui_step gui_app line_numbers_checked];
    try (rewrite step_keeps_flag by (intros ?; discriminate); exact IH).
  rewrite IH. cbn. unfold toggle_line_numbers, update_margins.
  destruct (show_line_numbers (text_editor (gui_app g))); reflexivity.
Qed.

Lemma check_mark_follows_flag_witness :
  let g := gui_step (Trigger Slot_toggle_line_numbers (chose ""))
             (gui_step (UserEdit "x") (ViewMenu_setup_actions app0)) in
  line_numbers_checked g = false /\
  show_line_numbers (text_editor (gui_app g)) = false.
Proof.
  cbn zeta.
  assert (H := check_mark_follows_flag
                 (gui_step (Trigger Slot_toggle_line_numbers (chose ""))
                    (gui_step (UserEdit "x") (ViewMenu_setup_actions app0)))
                 (gui_next _ _ (gui_next _ _ (gui_init fresh_qt fresh_gutter ∅)))).
  split; [reflexivity | rewrite <- H; reflexivity].
Defined.

(** * Start-up *)

(** X21.  Whatever the toolkit's defaults for the fresh widgets, the window
    starts with no current file, line numbers on, undo/redo enabled, the
    gutter visible and as wide as the document needs, the left margin equal
    to that width, the label "No file open", no message, and no file
    opened. *)
Theorem startup_state (q0 : QTextEdit) (g0 : LineNumberArea) (fs0 : gmap string string) :
  let a := MainWindow__init__ q0 g0 fs0 in
  let ed := text_editor a in
  current_file_path ed = "" /\ show_line_numbers ed = true /\
  undo_redo_enabled (qt ed) = true /\ toPlainText ed = plain_text q0 /\
  lna_visible (line_number_area ed) = true /\
  lna_width (line_number_area ed) = _calculate_width ed /\
  viewport_margins (qt ed) = (_calculate_width ed, 0, 0, 0) /\
  status_bar a = mk_sb "No file open" None /\
  fs a = fs0 /\ io_log a = [].
Proof. cbn zeta. repeat split. Qed.
